(** * sysapp.core.sysrequests: a facade over the psutil metrics provider

    Shallow embedding of [src/sysapp/core/sysrequests.py].  Every function
    of that module forwards to one call of the third-party [psutil]
    module; [psutil] itself is not part of the repository, so it enters
    the development as an interface ([Provider]) whose operations read,
    and may change, an opaque host state. *)

From Stdlib Require Import ZArith QArith Lia.
From stdpp Require Import base option list strings gmap fin_maps.

Local Open Scope Z_scope.
Set Warnings "-register-all".

(** ** Python values *)

(** Objects handed back by the provider.  A namedtuple is a tuple that
    also carries a type name and one name per position; a plain tuple has
    positions only.  A float is carried as the rational it denotes. *)
Inductive pyobj : Type :=
| PyNone
| PyInt (z : Z)
| PyFloat (q : Q)
| PyStr (s : string)
| PyTuple (items : list pyobj)
| PyNamedTuple (typename : string) (fields : list (string * pyobj))
| PyList (items : list pyobj).

(** [_fields] of an object: present on namedtuples only. *)
Definition field_names (o : pyobj) : option (list string) :=
  match o with
  | PyNamedTuple _ fields => Some (fields.*1)
  | _ => None
  end.

(** How a typed result looks as a Python object. *)
Class ToPy (A : Type) := to_py : A -> pyobj.
Global Hint Mode ToPy ! : typeclass_instances.

#[global] Instance Q_to_py : ToPy Q := PyFloat.
#[global] Instance triple_to_py {A B C} `{ToPy A, ToPy B, ToPy C} :
  ToPy (A * B * C) :=
  fun t => PyTuple [to_py t.1.1; to_py t.1.2; to_py t.2].

(** ** Exceptions and outcomes *)

(** The exceptions a call of this module can end in.  The module raises
    none itself: [ZeroDivisionError] comes from the [/] operator,
    [NameError] from the name [psutil] being unbound after a failed
    import (the [except ImportError] branch only prints), and everything
    else is raised inside the provider and identified by its class. *)
Inductive exn : Type :=
| ZeroDivisionError
| NameError
| ProviderError (cls : string).

Definition exn_class (e : exn) : string :=
  match e with
  | ZeroDivisionError => "ZeroDivisionError"
  | NameError => "NameError"
  | ProviderError cls => cls
  end.

#[global] Instance exn_eq_dec : EqDecision exn.
Proof. solve_decision. Defined.

Inductive outcome (A : Type) : Type :=
| Return (a : A)
| Raise (e : exn).
Arguments Return {A} a.
Arguments Raise {A} e.

(** A computation over the host state [S]: it ends in a value or an
    exception, and leaves a state behind in both cases. *)
Definition M (S A : Type) : Type := S -> outcome A * S.

Definition ret {S A} (a : A) : M S A := fun s => (Return a, s).

Definition throw {S A} (e : exn) : M S A := fun s => (Raise e, s).

Definition bind {S A B} (m : M S A) (k : A -> M S B) : M S B :=
  fun s =>
    match m s with
    | (Return a, s') => k a s'
    | (Raise e, s') => (Raise e, s')
    end.

Definition lift {S A} (o : outcome A) : M S A := fun s => (o, s).

Notation "'let*' x := m 'in' k" := (bind m (fun x => k))
  (at level 10, x name, m at level 100, k at level 200).

(** Python's true division of two ints.  The float it returns is the
    double nearest to the exact quotient; the embedding keeps the exact
    quotient as a rational.  Rounding to nearest is monotone and fixes
    every double, so a bound by a double ([0], [100]) on the exact
    quotient is a bound on the float as well. *)
Definition truediv (a b : Z) : outcome Q :=
  if b =? 0 then Raise ZeroDivisionError
  else Return (inject_Z a / inject_Z b)%Q.

(** ** Records of the provider *)

(** [psutil.virtual_memory()]: the fields present on every platform, then
    the platform's own, in declaration order. *)
Record svmem : Type := {
  total : Z;
  available : Z;
  percent : Q;
  used : Z;
  free : Z;
  vm_platform : list (string * Z)
}.

Definition svmem_fields (m : svmem) : list (string * pyobj) :=
  [("total", PyInt (total m));
   ("available", PyInt (available m));
   ("percent", PyFloat (percent m));
   ("used", PyInt (used m));
   ("free", PyInt (free m))]
  ++ (prod_map id PyInt <$> vm_platform m).

#[global] Instance svmem_to_py : ToPy svmem :=
  fun m => PyNamedTuple "svmem" (svmem_fields m).

(** [m._asdict()]: [dict(zip(m._fields, m))]. *)
Definition svmem_asdict (m : svmem) : gmap string pyobj :=
  list_to_map (svmem_fields m).

(** [psutil.cpu_stats()]. *)
Record scpustats : Type := {
  ctx_switches : Z;
  interrupts : Z;
  soft_interrupts : Z;
  syscalls : Z
}.

#[global] Instance scpustats_to_py : ToPy scpustats :=
  fun r => PyNamedTuple "scpustats"
    [("ctx_switches", PyInt (ctx_switches r));
     ("interrupts", PyInt (interrupts r));
     ("soft_interrupts", PyInt (soft_interrupts r));
     ("syscalls", PyInt (syscalls r))].

(** ** The provider *)

Inductive platform : Type := Linux | Windows | MacOS | BSD.

#[global] Instance platform_eq_dec : EqDecision platform.
Proof. solve_decision. Defined.

(** What the module uses of [psutil].  [imported] records whether
    [import psutil] succeeded when the module was loaded.  The other
    fields are the functions the module calls, with the keyword
    arguments it passes; the objects whose fields the module never reads
    stay [pyobj]. *)
Record Provider : Type := {
  pstate : Type;
  host_platform : platform;
  imported : bool;
  p_cpu_count : bool -> M pstate Z;
  p_cpu_stats : M pstate scpustats;
  p_cpu_freq : bool -> M pstate pyobj;
  p_cpu_percent : M pstate Q;
  p_getloadavg : M pstate (Q * Q * Q);
  p_virtual_memory : M pstate svmem;
  p_swap_memory : M pstate pyobj;
  p_disk_partitions : M pstate (list pyobj);
  p_disk_usage : string -> M pstate pyobj;
  p_disk_io_counters_perdisk : M pstate (gmap string pyobj);
  p_sensors_temperatures : bool -> M pstate (gmap string (list pyobj))
}.

(** ** The module *)

Section sysrequests.

Variable P : Provider.

Abbreviation St := (pstate P).

(** Evaluating [psutil.f(...)]: the name [psutil] is looked up first. *)
Definition psutil {A} (f : M St A) : M St A :=
  fun s => if imported P then f s else (Raise NameError, s).

Definition count_cpus : M St Z :=
  psutil (p_cpu_count P true).

Definition count_cpus_nonlogical : M St Z :=
  psutil (p_cpu_count P false).

Definition cpu_stats : M St scpustats :=
  psutil (p_cpu_stats P).

Definition cpu_frequency_all : M St pyobj :=
  psutil (p_cpu_freq P false).

Definition cpu_frequency_each : M St pyobj :=
  psutil (p_cpu_freq P true).

Definition cpu_percent : M St Q :=
  psutil (p_cpu_percent P).

Definition average_sysload : M St (Q * Q * Q) :=
  psutil (p_getloadavg P).

Definition virtual_memory : M St svmem :=
  psutil (p_virtual_memory P).

Definition virtual_memory_dict : M St (gmap string pyobj) :=
  let* m := psutil (p_virtual_memory P) in
  ret (svmem_asdict m).

Definition used_ram_percent : M St Q :=
  let* m := psutil (p_virtual_memory P) in
  ret (percent m).

Definition available_ram_percent : M St Q :=
  let* m1 := psutil (p_virtual_memory P) in
  let available := available m1 in
  let* m2 := psutil (p_virtual_memory P) in
  let total := total m2 in
  let* percentage := lift (truediv (available * 100) total) in
  ret percentage.

Definition swap_memory : M St pyobj :=
  psutil (p_swap_memory P).

Definition disk_partitions : M St (list pyobj) :=
  psutil (p_disk_partitions P).

(** [def disk_usage(path: str = '/')]: [None] stands for a call that
    leaves the argument out. *)
Definition disk_usage (path : option string) : M St pyobj :=
  let path := default "/" path in
  psutil (p_disk_usage P path).

Definition io_statistics : M St (gmap string pyobj) :=
  psutil (p_disk_io_counters_perdisk P).

Definition sensors_temp : M St (gmap string (list pyobj)) :=
  psutil (p_sensors_temperatures P false).

(** The body is the expression statement [...]; the function falls off
    its end and returns [None], whatever its annotation says. *)
Definition sensors_fans : M St (option (gmap string (list pyobj))) :=
  ret None.

End sysrequests.

Arguments psutil P {A} f s /.

(** ** Calls of the module, and the state each leaves behind *)

Inductive call : Type :=
| CountCpus
| CountCpusNonlogical
| CpuStats
| CpuFrequencyAll
| CpuFrequencyEach
| CpuPercent
| AverageSysload
| VirtualMemory
| VirtualMemoryDict
| UsedRamPercent
| AvailableRamPercent
| SwapMemory
| DiskPartitions
| DiskUsage (path : option string)
| IoStatistics
| SensorsTemp
| SensorsFans.

Definition state_after (P : Provider) (c : call) (s : pstate P) : pstate P :=
  match c with
  | CountCpus => (count_cpus P s).2
  | CountCpusNonlogical => (count_cpus_nonlogical P s).2
  | CpuStats => (cpu_stats P s).2
  | CpuFrequencyAll => (cpu_frequency_all P s).2
  | CpuFrequencyEach => (cpu_frequency_each P s).2
  | CpuPercent => (cpu_percent P s).2
  | AverageSysload => (average_sysload P s).2
  | VirtualMemory => (virtual_memory P s).2
  | VirtualMemoryDict => (virtual_memory_dict P s).2
  | UsedRamPercent => (used_ram_percent P s).2
  | AvailableRamPercent => (available_ram_percent P s).2
  | SwapMemory => (swap_memory P s).2
  | DiskPartitions => (disk_partitions P s).2
  | DiskUsage path => (disk_usage P path s).2
  | IoStatistics => (io_statistics P s).2
  | SensorsTemp => (sensors_temp P s).2
  | SensorsFans => (sensors_fans P s).2
  end.

(** A computation that only reads the state. *)
Definition pure_read {S A} (m : M S A) : Prop := forall s, (m s).2 = s.

(** A provider none of whose operations has a side effect on the host
    state (the read-only contract of a metrics provider). *)
Record read_only (P : Provider) : Prop := {
  ro_cpu_count : forall logical, pure_read (p_cpu_count P logical);
  ro_cpu_stats : pure_read (p_cpu_stats P);
  ro_cpu_freq : forall percpu, pure_read (p_cpu_freq P percpu);
  ro_cpu_percent : pure_read (p_cpu_percent P);
  ro_getloadavg : pure_read (p_getloadavg P);
  ro_virtual_memory : pure_read (p_virtual_memory P);
  ro_swap_memory : pure_read (p_swap_memory P);
  ro_disk_partitions : pure_read (p_disk_partitions P);
  ro_disk_usage : forall path, pure_read (p_disk_usage P path);
  ro_disk_io_counters : pure_read (p_disk_io_counters_perdisk P);
  ro_sensors_temperatures :
    forall fahrenheit, pure_read (p_sensors_temperatures P fahrenheit)
}.

(** ** The error kinds named by the specification *)

(** None of these is a class of the module or of the provider; they are
    here so that the statements about them can be written down. *)
Inductive ErrorKind : Type :=
| Unsupported
| PermissionDenied
| ProviderUnavailable
| InvalidArgument
| Undefined.

Definition kind_name (k : ErrorKind) : string :=
  match k with
  | Unsupported => "Unsupported"
  | PermissionDenied => "PermissionDenied"
  | ProviderUnavailable => "ProviderUnavailable"
  | InvalidArgument => "InvalidArgument"
  | Undefined => "Undefined"
  end.

(** The call ended in an exception of the class named by [k]. *)
Definition fails_with {A} (k : ErrorKind) (o : outcome A) : Prop :=
  match o with
  | Return _ => False
  | Raise e => exn_class e = kind_name k
  end.

#[global] Instance fails_with_dec {A} k (o : outcome A) :
  Decision (fails_with k o).
Proof. destruct o; simpl; apply _. Defined.

(** ** Example hosts *)

Module Host.

(** A host whose state is the time, counted in provider reads. *)
Definition GiB : Z := 1073741824.

Definition reading (tot avail : Z) (pct : Q) : svmem :=
  {| total := tot; available := avail; percent := pct;
     used := tot - avail; free := avail;
     vm_platform := [("buffers", 0); ("cached", 0)] |}.

(** Memory that does not change. *)
Definition steady (t : nat) : svmem :=
  reading (8 * GiB) (2 * GiB) 75.

(** A guest whose memory is ballooned down after the first read. *)
Definition shrinking (t : nat) : svmem :=
  match t with
  | O => reading (8 * GiB) (6 * GiB) 25
  | _ => reading (4 * GiB) (1 * GiB) 75
  end.

(** A host that reports no memory at all. *)
Definition empty (t : nat) : svmem :=
  reading 0 0 0.

Definition paths : list string := ["/"; "/home"].

Definition stats : scpustats :=
  {| ctx_switches := 1024; interrupts := 512; soft_interrupts := 256;
     syscalls := 0 |}.

Definition disks : gmap string pyobj :=
  {[ "sda" := PyNamedTuple "sdiskio"
                [("read_count", PyInt 10); ("write_count", PyInt 4)];
     "sdb" := PyNamedTuple "sdiskio"
                [("read_count", PyInt 0); ("write_count", PyInt 0)] ]}.

Definition usage : pyobj :=
  PyNamedTuple "sdiskusage"
    [("total", PyInt 100); ("used", PyInt 40); ("free", PyInt 60);
     ("percent", PyFloat 40)].

(** [ticks] says whether a memory read lets the time advance. *)
Definition linux (ticks : bool) (memory : nat -> svmem) : Provider :=
  {| pstate := nat;
     host_platform := Linux;
     imported := true;
     p_cpu_count := fun logical => ret (if logical then 8 else 4);
     p_cpu_stats := ret stats;
     p_cpu_freq := fun percpu =>
       let f := PyNamedTuple "scpufreq"
                  [("current", PyFloat 2400); ("min", PyFloat 800);
                   ("max", PyFloat 3600)] in
       ret (if percpu then PyList [f; f] else f);
     p_cpu_percent := ret 12%Q;
     p_getloadavg := ret (1 # 2, 1 # 4, 1 # 8)%Q;
     p_virtual_memory := fun t =>
       (Return (memory t), if ticks then S t else t);
     p_swap_memory := ret (PyNamedTuple "sswap" [("total", PyInt 0)]);
     p_disk_partitions := ret [];
     p_disk_usage := fun path =>
       if bool_decide (path ∈ paths) then ret usage
       else throw (ProviderError "FileNotFoundError");
     p_disk_io_counters_perdisk := ret disks;
     p_sensors_temperatures := fun _ => ret ∅ |}.

End Host.

(** ** What the specification says where the module does otherwise *)

(** A memory reading as a host produces it. *)
Definition sound_reading (m : svmem) : Prop :=
  0 < total m /\ 0 <= available m <= total m.

(** The specification on [available_ram_percent]: the quotient, within
    [0, 100] whenever the total is positive, and the [Undefined] error
    when the total is zero. *)
Definition claimed_available_ram_percent (P : Provider) (s : pstate P) : Prop :=
  forall m1 s1 m2 s2,
    virtual_memory P s = (Return m1, s1) ->
    virtual_memory P s1 = (Return m2, s2) ->
    (0 < total m2 ->
       exists q, (available_ram_percent P s).1 = Return q /\
                 (0 <= q <= 100)%Q) /\
    (total m2 = 0 -> fails_with Undefined (available_ram_percent P s).1).

(** What the docstring of [cpu_stats] records about the provider. *)
Definition linux_syscalls_zero (P : Provider) : Prop :=
  host_platform P = Linux ->
  forall s r s', p_cpu_stats P s = (Return r, s') -> syscalls r = 0.

(** The specification on [cpu_stats]: where the platform has no syscalls
    counter the call signals [Unsupported]. *)
Definition claimed_cpu_stats_unsupported (P : Provider) (s : pstate P) : Prop :=
  host_platform P = Linux -> fails_with Unsupported (cpu_stats P s).1.

(** The specification on [average_sysload]: three named fields. *)
Definition claimed_average_sysload_named (P : Provider) (s : pstate P) : Prop :=
  forall r s',
    average_sysload P s = (Return r, s') ->
    exists names, field_names (to_py r) = Some names /\ length names = 3%nat.

(** The specification on [disk_usage]: [InvalidArgument] on a path the
    host does not have. *)
Definition claimed_disk_usage_invalid (P : Provider)
    (on_host : string -> Prop) (s : pstate P) (path : string) : Prop :=
  ~ on_host path -> fails_with InvalidArgument (disk_usage P (Some path) s).1.

(** Attribute access [m.name] on a memory reading. *)
Fixpoint assoc {A} (name : string) (l : list (string * A)) : option A :=
  match l with
  | [] => None
  | (k, v) :: l => if decide (k = name) then Some v else assoc name l
  end.

Definition svmem_getattr (m : svmem) (name : string) : option pyobj :=
  if decide (name = "total") then Some (PyInt (total m))
  else if decide (name = "available") then Some (PyInt (available m))
  else if decide (name = "percent") then Some (PyFloat (percent m))
  else if decide (name = "used") then Some (PyInt (used m))
  else if decide (name = "free") then Some (PyInt (free m))
  else PyInt <$> assoc name (vm_platform m).

(** ** Observing a call *)

Definition exception_of {A} (o : outcome A) : option exn :=
  match o with
  | Return _ => None
  | Raise e => Some e
  end.

(** The exception a call of the module ends in, if any. *)
Definition call_exception (P : Provider) (c : call) (s : pstate P) : option exn :=
  match c with
  | CountCpus => exception_of (count_cpus P s).1
  | CountCpusNonlogical => exception_of (count_cpus_nonlogical P s).1
  | CpuStats => exception_of (cpu_stats P s).1
  | CpuFrequencyAll => exception_of (cpu_frequency_all P s).1
  | CpuFrequencyEach => exception_of (cpu_frequency_each P s).1
  | CpuPercent => exception_of (cpu_percent P s).1
  | AverageSysload => exception_of (average_sysload P s).1
  | VirtualMemory => exception_of (virtual_memory P s).1
  | VirtualMemoryDict => exception_of (virtual_memory_dict P s).1
  | UsedRamPercent => exception_of (used_ram_percent P s).1
  | AvailableRamPercent => exception_of (available_ram_percent P s).1
  | SwapMemory => exception_of (swap_memory P s).1
  | DiskPartitions => exception_of (disk_partitions P s).1
  | DiskUsage path => exception_of (disk_usage P path s).1
  | IoStatistics => exception_of (io_statistics P s).1
  | SensorsTemp => exception_of (sensors_temp P s).1
  | SensorsFans => exception_of (sensors_fans P s).1
  end.

(** The exception, if any, of the provider call a call of the module
    makes first, with the arguments the module passes; [sensors_fans]
    makes none. *)
Definition provider_exception (P : Provider) (c : call) (s : pstate P)
  : option exn :=
  match c with
  | CountCpus => exception_of (p_cpu_count P true s).1
  | CountCpusNonlogical => exception_of (p_cpu_count P false s).1
  | CpuStats => exception_of (p_cpu_stats P s).1
  | CpuFrequencyAll => exception_of (p_cpu_freq P false s).1
  | CpuFrequencyEach => exception_of (p_cpu_freq P true s).1
  | CpuPercent => exception_of (p_cpu_percent P s).1
  | AverageSysload => exception_of (p_getloadavg P s).1
  | VirtualMemory | VirtualMemoryDict | UsedRamPercent
  | AvailableRamPercent => exception_of (p_virtual_memory P s).1
  | SwapMemory => exception_of (p_swap_memory P s).1
  | DiskPartitions => exception_of (p_disk_partitions P s).1
  | DiskUsage path => exception_of (p_disk_usage P (default "/" path) s).1
  | IoStatistics => exception_of (p_disk_io_counters_perdisk P s).1
  | SensorsTemp => exception_of (p_sensors_temperatures P false s).1
  | SensorsFans => None
  end.

(** The same host, on which [import psutil] failed. *)
Definition without_psutil (P : Provider) : Provider :=
  {| pstate := pstate P;
     host_platform := host_platform P;
     imported := false;
     p_cpu_count := p_cpu_count P;
     p_cpu_stats := p_cpu_stats P;
     p_cpu_freq := p_cpu_freq P;
     p_cpu_percent := p_cpu_percent P;
     p_getloadavg := p_getloadavg P;
     p_virtual_memory := p_virtual_memory P;
     p_swap_memory := p_swap_memory P;
     p_disk_partitions := p_disk_partitions P;
     p_disk_usage := p_disk_usage P;
     p_disk_io_counters_perdisk := p_disk_io_counters_perdisk P;
     p_sensors_temperatures := p_sensors_temperatures P |}.

(** The same host with another source of memory readings. *)
Definition with_virtual_memory (P : Provider) (f : M (pstate P) svmem)
  : Provider :=
  {| pstate := pstate P;
     host_platform := host_platform P;
     imported := imported P;
     p_cpu_count := p_cpu_count P;
     p_cpu_stats := p_cpu_stats P;
     p_cpu_freq := p_cpu_freq P;
     p_cpu_percent := p_cpu_percent P;
     p_getloadavg := p_getloadavg P;
     p_virtual_memory := f;
     p_swap_memory := p_swap_memory P;
     p_disk_partitions := p_disk_partitions P;
     p_disk_usage := p_disk_usage P;
     p_disk_io_counters_perdisk := p_disk_io_counters_perdisk P;
     p_sensors_temperatures := p_sensors_temperatures P |}.

(** A host whose memory can be read once; the next read fails. *)
Definition read_once : Provider :=
  with_virtual_memory (Host.linux true Host.steady)
    (fun t : nat =>
       match t with
       | O => (Return (Host.steady 0), 1%nat)
       | _ => (Raise (ProviderError "OSError"), t)
       end).

(** ** Answers, and what the specification says of repeated calls *)

(** What a call of the module hands back, whichever call it is. *)
Inductive answer : Type :=
| AInt (n : Z)
| AFloat (q : Q)
| AStats (r : scpustats)
| ALoad (l : Q * Q * Q)
| AMem (m : svmem)
| AObj (o : pyobj)
| AList (l : list pyobj)
| ADict (d : gmap string pyobj)
| ATemps (d : gmap string (list pyobj))
| ANone.

Definition answer_with {A} (f : A -> answer) (o : outcome A) : outcome answer :=
  match o with
  | Return a => Return (f a)
  | Raise e => Raise e
  end.

(** The outcome of a call of the module made in state [s]. *)
Definition call_outcome (P : Provider) (c : call) (s : pstate P)
  : outcome answer :=
  match c with
  | CountCpus => answer_with AInt (count_cpus P s).1
  | CountCpusNonlogical => answer_with AInt (count_cpus_nonlogical P s).1
  | CpuStats => answer_with AStats (cpu_stats P s).1
  | CpuFrequencyAll => answer_with AObj (cpu_frequency_all P s).1
  | CpuFrequencyEach => answer_with AObj (cpu_frequency_each P s).1
  | CpuPercent => answer_with AFloat (cpu_percent P s).1
  | AverageSysload => answer_with ALoad (average_sysload P s).1
  | VirtualMemory => answer_with AMem (virtual_memory P s).1
  | VirtualMemoryDict => answer_with ADict (virtual_memory_dict P s).1
  | UsedRamPercent => answer_with AFloat (used_ram_percent P s).1
  | AvailableRamPercent => answer_with AFloat (available_ram_percent P s).1
  | SwapMemory => answer_with AObj (swap_memory P s).1
  | DiskPartitions => answer_with AList (disk_partitions P s).1
  | DiskUsage path => answer_with AObj (disk_usage P path s).1
  | IoStatistics => answer_with ADict (io_statistics P s).1
  | SensorsTemp => answer_with ATemps (sensors_temp P s).1
  | SensorsFans =>
      answer_with (fun o => match o with Some d => ATemps d | None => ANone end)
        (sensors_fans P s).1
  end.

(** The specification on repeated calls: no call of the module changes
    what a later call returns; with [CountCpus] for both calls this is
    the repeated CPU count. *)
Definition claimed_calls_independent (P : Provider) : Prop :=
  forall (earlier later : call) (s : pstate P),
    call_outcome P later (state_after P earlier s) = call_outcome P later s.

(** [available * 100 / total] of one memory reading. *)
Definition snapshot_percent (m : svmem) : Q :=
  (inject_Z (available m * 100) / inject_Z (total m))%Q.

(** The same host with another CPU utilisation query. *)
Definition with_cpu_percent (P : Provider) (f : M (pstate P) Q) : Provider :=
  {| pstate := pstate P;
     host_platform := host_platform P;
     imported := imported P;
     p_cpu_count := p_cpu_count P;
     p_cpu_stats := p_cpu_stats P;
     p_cpu_freq := p_cpu_freq P;
     p_cpu_percent := f;
     p_getloadavg := p_getloadavg P;
     p_virtual_memory := p_virtual_memory P;
     p_swap_memory := p_swap_memory P;
     p_disk_partitions := p_disk_partitions P;
     p_disk_usage := p_disk_usage P;
     p_disk_io_counters_perdisk := p_disk_io_counters_perdisk P;
     p_sensors_temperatures := p_sensors_temperatures P |}.

(** A host whose CPU utilisation is measured since the previous query:
    the state counts the queries made, the first has nothing to compare
    with and answers 0. *)
Definition since_last_call : Provider :=
  with_cpu_percent (Host.linux false Host.steady)
    (fun n : nat =>
       (Return (match n with O => 0 | _ => 12 end)%Q, S n)).

(** ** Properties of the monad *)

Section monad_facts.

Context {S : Type}.

Lemma bind_Return {A B} (m : M S A) (k : A -> M S B) s a s' :
  m s = (Return a, s') -> bind m k s = k a s'.
Proof. intros H. unfold bind. rewrite H. reflexivity. Qed.

Lemma bind_Raise {A B} (m : M S A) (k : A -> M S B) s e s' :
  m s = (Raise e, s') -> bind m k s = (Raise e, s').
Proof. intros H. unfold bind. rewrite H. reflexivity. Qed.

End monad_facts.

Lemma pure_read_psutil P {A} (f : M (pstate P) A) :
  pure_read f -> pure_read (psutil P f).
Proof.
  intros Hf s. unfold psutil. destruct (imported P); [apply Hf | reflexivity].
Qed.

(** A call through [psutil] that returned did reach the provider. *)
Lemma psutil_Return P {A} (f : M (pstate P) A) s a s' :
  psutil P f s = (Return a, s') -> imported P = true /\ f s = (Return a, s').
Proof.
  unfold psutil. destruct (imported P); [auto | discriminate].
Qed.

Lemma psutil_imported P {A} (f : M (pstate P) A) s :
  imported P = true -> psutil P f s = f s.
Proof. intros H. unfold psutil. rewrite H. reflexivity. Qed.

(** ** Division *)

Lemma truediv_zero a : truediv a 0 = Raise ZeroDivisionError.
Proof. reflexivity. Qed.

Lemma truediv_nonzero a b :
  b <> 0 -> truediv a b = Return (inject_Z a / inject_Z b)%Q.
Proof.
  intros Hb. unfold truediv. destruct (Z.eqb_spec b 0); [contradiction | reflexivity].
Qed.

Lemma percent_bounds a t :
  0 < t -> 0 <= a <= t ->
  (0 <= inject_Z (a * 100) / inject_Z t <= 100)%Q.
Proof.
  intros Ht [Ha Hat].
  assert (Hpos : (0 < inject_Z t)%Q).
  { change (inject_Z 0 < inject_Z t)%Q. rewrite <- Zlt_Qlt. exact Ht. }
  split.
  - apply Qle_shift_div_l; [exact Hpos |].
    rewrite Qmult_0_l. change (inject_Z 0 <= inject_Z (a * 100))%Q.
    rewrite <- Zle_Qle. lia.
  - apply Qle_shift_div_r; [exact Hpos |].
    change 100%Q with (inject_Z 100). rewrite <- inject_Z_mult.
    rewrite <- Zle_Qle. lia.
Qed.

(** The two reads of [available_ram_percent], spelled out. *)
Lemma available_ram_percent_reads P s m1 s1 m2 s2 :
  virtual_memory P s = (Return m1, s1) ->
  virtual_memory P s1 = (Return m2, s2) ->
  available_ram_percent P s = (truediv (available m1 * 100) (total m2), s2).
Proof.
  intros H1 H2. unfold available_ram_percent.
  rewrite (bind_Return _ _ _ _ _ H1). cbv zeta.
  rewrite (bind_Return _ _ _ _ _ H2). cbv zeta.
  unfold bind, lift, ret.
  destruct (truediv (available m1 * 100) (total m2)); reflexivity.
Qed.

Lemma list_to_map_assoc {A} (l : list (string * A)) (name : string) :
  (list_to_map l : gmap string A) !! name = assoc name l.
Proof.
  induction l as [| [k v] l IH]; simpl.
  - apply lookup_empty.
  - rewrite lookup_insert. destruct (decide (k = name)); [reflexivity | exact IH].
Qed.

Lemma assoc_fmap {A B} (f : A -> B) (l : list (string * A)) (name : string) :
  assoc name (prod_map id f <$> l) = f <$> assoc name l.
Proof.
  induction l as [| [k v] l IH]; simpl; [reflexivity |].
  destruct (decide (k = name)); [reflexivity | exact IH].
Qed.

(** ** Memory percentages *)

(** C1 (as the module has it): on a memory reading that is the same at
    both reads, [available_ram_percent] is [available * 100 / total]; it
    lies in [0, 100] when the total is positive and the available amount
    is between zero and the total; when the total is zero the call ends
    in [ZeroDivisionError]. *)
Theorem available_ram_percent_steady P s m s1 s2 :
  virtual_memory P s = (Return m, s1) ->
  virtual_memory P s1 = (Return m, s2) ->
  (0 < total m -> 0 <= available m <= total m ->
     exists q, available_ram_percent P s = (Return q, s2) /\
               q = (inject_Z (available m * 100) / inject_Z (total m))%Q /\
               (0 <= q <= 100)%Q) /\
  (total m = 0 -> available_ram_percent P s = (Raise ZeroDivisionError, s2)).
Proof.
  intros H1 H2.
  rewrite (available_ram_percent_reads _ _ _ _ _ _ H1 H2).
  split.
  - intros Ht Ha. eexists. rewrite truediv_nonzero by lia.
    split; [reflexivity |]. split; [reflexivity |].
    apply percent_bounds; assumption.
  - intros ->. reflexivity.
Qed.

Lemma available_ram_percent_steady_witness :
  exists q,
    available_ram_percent (Host.linux false Host.steady) 0%nat
      = (Return q, 0%nat) /\
    (0 <= q <= 100)%Q.
Proof.
  destruct (available_ram_percent_steady (Host.linux false Host.steady)
              0%nat (Host.steady 0) 0%nat 0%nat eq_refl eq_refl)
    as [Hpos _].
  destruct Hpos as (q & Hq & _ & Hb).
  - reflexivity.
  - split; discriminate.
  - exists q. split; [exact Hq | exact Hb].
Defined.

(** C1, as the specification words it, fails on a host that reports a
    zero total (the call ends in [ZeroDivisionError], whose class is not
    [Undefined]) and on a host whose memory changes between the two
    reads (the quotient is 150). *)
Lemma available_ram_percent_claim_fails :
  ~ claimed_available_ram_percent (Host.linux false Host.empty) 0%nat /\
  ~ claimed_available_ram_percent (Host.linux true Host.shrinking) 0%nat.
Proof.
  split; intros H.
  - destruct (H (Host.empty 0) 0%nat (Host.empty 0) 0%nat eq_refl eq_refl)
      as [_ Hz].
    specialize (Hz eq_refl). vm_compute in Hz. discriminate Hz.
  - destruct (H (Host.shrinking 0) 1%nat (Host.shrinking 1) 2%nat
                eq_refl eq_refl) as [Hp _].
    destruct Hp as (q & Hq & _ & Hle); [reflexivity |].
    vm_compute in Hq. injection Hq as <-.
    vm_compute in Hle. apply Hle. reflexivity.
Qed.

Lemma quotient_cross a b c d :
  b <> 0 -> d <> 0 ->
  (inject_Z a / inject_Z b == inject_Z c / inject_Z d)%Q <-> a * d = c * b.
Proof.
  intros Hb Hd.
  assert (Hb' : ~ (inject_Z b == 0)%Q).
  { intros H. apply Hb. apply (proj1 (inject_Z_injective b 0)). exact H. }
  assert (Hd' : ~ (inject_Z d == 0)%Q).
  { intros H. apply Hd. apply (proj1 (inject_Z_injective d 0)). exact H. }
  rewrite <- inject_Z_injective, !inject_Z_mult.
  split; intros H.
  - transitivity (inject_Z a / inject_Z b * (inject_Z b * inject_Z d))%Q;
      [field; exact Hb' |].
    transitivity (inject_Z c / inject_Z d * (inject_Z b * inject_Z d))%Q;
      [| field; exact Hd'].
    apply Qmult_comp; [exact H | reflexivity].
  - apply (Qmult_inj_r _ _ (inject_Z b * inject_Z d)).
    + intros Hz. apply Qmult_integral in Hz. tauto.
    + transitivity (inject_Z a * inject_Z d)%Q; [field; exact Hb' |].
      rewrite H. field. exact Hd'.
Qed.

(** The quotient over one divisor tells the dividends apart. *)
Lemma percent_same_total a a' t :
  t <> 0 ->
  (inject_Z (a * 100) / inject_Z t == inject_Z (a' * 100) / inject_Z t)%Q
  <-> a = a'.
Proof.
  intros Ht. rewrite (quotient_cross _ _ _ _ Ht Ht). split.
  - intros H. apply Z.mul_reg_r in H; [lia | exact Ht].
  - intros ->. reflexivity.
Qed.

(** The quotient of one dividend tells the divisors apart, unless the
    dividend is zero. *)
Lemma percent_same_available a t t' :
  t' <> 0 -> t <> 0 ->
  (inject_Z (a * 100) / inject_Z t' == inject_Z (a * 100) / inject_Z t)%Q
  <-> t = t' \/ a = 0.
Proof.
  intros Ht' Ht. rewrite (quotient_cross _ _ _ _ Ht' Ht). split.
  - intros H. destruct (decide (a = 0)) as [Ha | Ha]; [right; exact Ha |].
    left. apply (Z.mul_reg_l _ _ (a * 100)); [lia | exact H].
  - intros [-> | ->]; reflexivity.
Qed.

(** C10: [available_ram_percent] reads the provider twice and divides
    the [available] of the first reading, times 100, by the [total] of
    the second, ending in [ZeroDivisionError] when that total is zero.
    When the two readings are the same record the result is the
    percentage of that one snapshot.  Without that it need not be: the
    result is the percentage of the second snapshot only if the two
    readings agree on [available], and of the first only if they agree
    on [total] (or nothing is available); and there is a host, each of
    whose readings is sound, on which the result is the percentage of
    neither snapshot and exceeds 100. *)
Theorem available_ram_percent_two_reads :
  (forall P s m1 s1 m2 s2,
      virtual_memory P s = (Return m1, s1) ->
      virtual_memory P s1 = (Return m2, s2) ->
      (total m2 = 0 ->
       available_ram_percent P s = (Raise ZeroDivisionError, s2)) /\
      (total m2 <> 0 ->
       available_ram_percent P s
         = (Return (inject_Z (available m1 * 100) / inject_Z (total m2))%Q,
            s2) /\
       (m1 = m2 ->
        available_ram_percent P s = (Return (snapshot_percent m2), s2)) /\
       (forall q,
           available_ram_percent P s = (Return q, s2) ->
           ((q == snapshot_percent m2)%Q <-> available m1 = available m2) /\
           (total m1 <> 0 ->
            ((q == snapshot_percent m1)%Q <->
             total m1 = total m2 \/ available m1 = 0))))) /\
  (exists P s m1 s1 m2 s2 q,
      virtual_memory P s = (Return m1, s1) /\
      virtual_memory P s1 = (Return m2, s2) /\
      sound_reading m1 /\ sound_reading m2 /\
      available_ram_percent P s = (Return q, s2) /\
      ~ (q == snapshot_percent m1)%Q /\
      ~ (q == snapshot_percent m2)%Q /\
      ~ (0 <= q <= 100)%Q).
Proof.
  split.
  - intros P s m1 s1 m2 s2 H1 H2.
    rewrite (available_ram_percent_reads _ _ _ _ _ _ H1 H2).
    split.
    + intros ->. reflexivity.
    + intros Ht. rewrite (truediv_nonzero _ _ Ht).
      split; [reflexivity |]. split.
      * intros ->. reflexivity.
      * intros q Hq. injection Hq as <-. unfold snapshot_percent. split.
        -- apply percent_same_total. exact Ht.
        -- intros Ht1. apply percent_same_available; assumption.
  - exists (Host.linux true Host.shrinking), 0%nat,
      (Host.shrinking 0), 1%nat, (Host.shrinking 1), 2%nat.
    eexists. split; [reflexivity |]. split; [reflexivity |].
    split; [vm_compute; intuition discriminate |].
    split; [vm_compute; intuition discriminate |].
    split; [vm_compute; reflexivity |].
    split; [| split].
    + intros Heq. vm_compute in Heq. discriminate Heq.
    + intros Heq. vm_compute in Heq. discriminate Heq.
    + intros [_ Hle]. vm_compute in Hle. apply Hle. reflexivity.
Qed.

Lemma available_ram_percent_two_reads_witness :
  available_ram_percent (Host.linux true Host.shrinking) 0%nat
    = (Return (inject_Z (6 * Host.GiB * 100) / inject_Z (4 * Host.GiB))%Q,
       2%nat).
Proof.
  destruct (proj1 available_ram_percent_two_reads
              (Host.linux true Host.shrinking) 0%nat
              (Host.shrinking 0) 1%nat (Host.shrinking 1) 2%nat
              eq_refl eq_refl) as [_ Hnz].
  destruct Hnz as [Hq _].
  - discriminate.
  - exact Hq.
Defined.

(** ** CPU statistics *)

(** C2 (as the module has it): [cpu_stats] hands back the provider's
    record as it is, and ends in an exception only when the provider
    call does, with that exception; on Linux, where the provider sets
    [syscalls] to 0, the caller receives the record with [syscalls = 0]
    and no [Unsupported] is raised. *)
Theorem cpu_stats_passes_record P s :
  imported P = true ->
  cpu_stats P s = p_cpu_stats P s /\
  (forall r s',
      p_cpu_stats P s = (Return r, s') ->
      ~ fails_with Unsupported (cpu_stats P s).1 /\
      (host_platform P = Linux -> linux_syscalls_zero P ->
       cpu_stats P s = (Return r, s') /\ syscalls r = 0)).
Proof.
  intros Himp.
  assert (Heq : cpu_stats P s = p_cpu_stats P s)
    by (apply psutil_imported; exact Himp).
  split; [exact Heq |].
  intros r s' Hr. rewrite Heq, Hr. split.
  - simpl. tauto.
  - intros Hlinux Hzero. split; [reflexivity |].
    exact (Hzero Hlinux s r s' Hr).
Qed.

Lemma cpu_stats_passes_record_witness :
  cpu_stats (Host.linux false Host.steady) 0%nat = (Return Host.stats, 0%nat) /\
  syscalls Host.stats = 0.
Proof.
  destruct (cpu_stats_passes_record (Host.linux false Host.steady) 0%nat
              eq_refl) as [_ H].
  destruct (H Host.stats 0%nat eq_refl) as [_ Hl].
  apply Hl.
  - reflexivity.
  - intros _ s r s' Hr. injection Hr as <- _. reflexivity.
Defined.

(** C2, as the specification words it, fails on a Linux host: the call
    returns a record whose [syscalls] field is 0. *)
Lemma cpu_stats_claim_fails :
  ~ claimed_cpu_stats_unsupported (Host.linux false Host.steady) 0%nat /\
  exists r,
    cpu_stats (Host.linux false Host.steady) 0%nat = (Return r, 0%nat) /\
    syscalls r = 0.
Proof.
  split.
  - intros H. exact (H eq_refl).
  - exists Host.stats. split; reflexivity.
Qed.

(** ** Sensors *)

(** C3 (what the module does): [sensors_fans] returns [None] on every
    host and in every state, without a call of the provider; its
    sibling [sensors_temp] returns the provider's mapping. *)
Theorem sensors_fans_returns_None P s :
  sensors_fans P s = (Return None, s) /\
  sensors_temp P s = psutil P (p_sensors_temperatures P false) s.
Proof. split; reflexivity. Qed.

(** ** Load average *)

(** C4 (as the module has it): [average_sysload] hands back the
    provider's tuple: three floats by position, in the order 1, 5 and 15
    minutes, with no field names. *)
Theorem average_sysload_positional P s r s' :
  average_sysload P s = (Return r, s') ->
  p_getloadavg P s = (Return r, s') /\
  to_py r = PyTuple [PyFloat r.1.1; PyFloat r.1.2; PyFloat r.2] /\
  field_names (to_py r) = None.
Proof.
  intros H. apply psutil_Return in H as [_ H].
  split; [exact H |]. split; reflexivity.
Qed.

Lemma average_sysload_positional_witness :
  field_names (to_py (1 # 2, 1 # 4, 1 # 8)%Q) = None.
Proof.
  exact (proj2 (proj2 (average_sysload_positional
                         (Host.linux false Host.steady) 0%nat
                         (1 # 2, 1 # 4, 1 # 8)%Q 0%nat eq_refl))).
Defined.

(** C4, as the specification words it, fails: the result has no field
    names. *)
Lemma average_sysload_claim_fails :
  ~ claimed_average_sysload_named (Host.linux false Host.steady) 0%nat.
Proof.
  intros H.
  destruct (H (1 # 2, 1 # 4, 1 # 8)%Q 0%nat eq_refl) as (names & Hn & _).
  discriminate Hn.
Qed.

(** ** Disk usage *)

(** C5 (as the module has it): [disk_usage] makes no check of the path;
    when the provider raises for a path, the call ends in that very
    exception, in the provider's state, so it fails with
    [InvalidArgument] only if that is the class the provider raised. *)
Theorem disk_usage_propagates P path s e s' :
  imported P = true ->
  p_disk_usage P path s = (Raise e, s') ->
  disk_usage P (Some path) s = (Raise e, s') /\
  (fails_with InvalidArgument (disk_usage P (Some path) s).1 <->
   exn_class e = "InvalidArgument").
Proof.
  intros Himp He.
  assert (Heq : disk_usage P (Some path) s = (Raise e, s')).
  { unfold disk_usage. simpl default. rewrite psutil_imported by exact Himp.
    exact He. }
  split; [exact Heq |]. rewrite Heq. reflexivity.
Qed.

Lemma disk_usage_propagates_witness :
  disk_usage (Host.linux false Host.steady) (Some "/missing") 0%nat
    = (Raise (ProviderError "FileNotFoundError"), 0%nat).
Proof.
  exact (proj1 (disk_usage_propagates (Host.linux false Host.steady)
                  "/missing" 0%nat (ProviderError "FileNotFoundError") 0%nat
                  eq_refl eq_refl)).
Defined.

(** C5, as the specification words it, fails: on a path the host does
    not have the call ends in the provider's [FileNotFoundError]. *)
Lemma disk_usage_claim_fails :
  ~ claimed_disk_usage_invalid (Host.linux false Host.steady)
      (fun path => path ∈ Host.paths) 0%nat "/missing".
Proof.
  intros H.
  assert (Hmissing : "/missing" ∉ Host.paths).
  { unfold Host.paths. rewrite !elem_of_cons, elem_of_nil.
    intros [Heq | [Heq | []]]; discriminate Heq. }
  specialize (H Hmissing). vm_compute in H. discriminate H.
Qed.


(** ** Disk I/O counters *)

(** C7: the mapping [io_statistics] returns is the provider's per-disk
    mapping: the same disks, each with the provider's counters, one
    entry for each disk the provider reported, and no key twice. *)
Theorem io_statistics_one_entry_per_disk P s
    (d : gmap string pyobj) s' :
  io_statistics P s = (Return d, s') ->
  exists reported : gmap string pyobj,
    p_disk_io_counters_perdisk P s = (Return reported, s') /\
    dom d = dom reported /\
    (forall disk, d !! disk = reported !! disk) /\
    NoDup (map_to_list d).*1 /\
    length (map_to_list d) = size (dom reported).
Proof.
  intros H. apply psutil_Return in H as [_ H].
  exists d. split; [exact H |]. split; [reflexivity |].
  split; [reflexivity |]. split.
  - apply NoDup_fst_map_to_list.
  - rewrite size_dom. apply length_map_to_list.
Qed.

Lemma io_statistics_one_entry_per_disk_witness :
  exists reported : gmap string pyobj,
    dom Host.disks = dom reported /\
    length (map_to_list Host.disks) = size (dom reported).
Proof.
  destruct (io_statistics_one_entry_per_disk (Host.linux false Host.steady)
              0%nat Host.disks 0%nat eq_refl)
    as (reported & _ & Hdom & _ & _ & Hlen).
  exists reported. split; [exact Hdom | exact Hlen].
Defined.

(** ** Virtual memory as a mapping *)

Lemma svmem_asdict_lookup (m : svmem) (name : string) :
  svmem_asdict m !! name = svmem_getattr m name.
Proof.
  unfold svmem_asdict, svmem_getattr, svmem_fields.
  rewrite list_to_map_assoc. simpl.
  repeat (case_decide; [subst; try reflexivity; congruence |]).
  repeat (case_decide; [congruence |]).
  apply assoc_fmap.
Qed.

(** C8: from one and the same state, [virtual_memory_dict] returns the
    mapping from each field name of the record [virtual_memory] returns
    to that field's value, and nothing under any other name; when
    [virtual_memory] ends in an exception so does [virtual_memory_dict],
    with the same exception, and both leave the same state. *)
Theorem virtual_memory_dict_is_virtual_memory P s :
  match virtual_memory P s with
  | (Return m, s') =>
      exists d : gmap string pyobj,
        virtual_memory_dict P s = (Return d, s') /\
        d = list_to_map (svmem_fields m) /\
        field_names (to_py m) = Some (svmem_fields m).*1 /\
        forall name, d !! name = svmem_getattr m name
  | (Raise e, s') => virtual_memory_dict P s = (Raise e, s')
  end.
Proof.
  destruct (virtual_memory P s) as [[m | e] s'] eqn:Hvm.
  - exists (svmem_asdict m). split.
    + unfold virtual_memory_dict. rewrite (bind_Return _ _ _ _ _ Hvm).
      reflexivity.
    + split; [reflexivity |]. split; [reflexivity |].
      apply svmem_asdict_lookup.
  - unfold virtual_memory_dict. apply bind_Raise. exact Hvm.
Qed.

(** ** Repeated calls *)

(** C6 (as the module has it): [count_cpus] is the one provider call
    [cpu_count(logical=True)]; when that call leaves the host state as
    it was, so does [count_cpus], a second [count_cpus] returns what the
    first returned, and every later call of the module returns what it
    would have returned without the [count_cpus] before it; nothing is
    asked of the other provider operations. *)
Theorem count_cpus_repeatable P :
  pure_read (p_cpu_count P true) ->
  forall s,
    (count_cpus P s).2 = s /\
    count_cpus P (count_cpus P s).2 = count_cpus P s /\
    (forall later,
        call_outcome P later (state_after P CountCpus s)
        = call_outcome P later s).
Proof.
  intros Hpure s.
  assert (Hs : (count_cpus P s).2 = s)
    by exact (pure_read_psutil P _ Hpure s).
  split; [exact Hs |]. split.
  - rewrite Hs. reflexivity.
  - intros later. cbv beta iota delta [state_after]. rewrite Hs. reflexivity.
Qed.

Lemma count_cpus_repeatable_witness :
  count_cpus since_last_call (count_cpus since_last_call 0%nat).2
  = (Return 8, 0%nat).
Proof.
  refine (proj1 (proj2 (count_cpus_repeatable since_last_call _ 0%nat))).
  intros s. reflexivity.
Defined.

(** C6, as the specification words it, fails on a host that measures
    CPU utilisation since the previous query: the first [cpu_percent]
    returns 0 and changes what the next one returns. *)
Lemma calls_independent_claim_fails :
  ~ claimed_calls_independent since_last_call /\
  cpu_percent since_last_call 0%nat = (Return 0%Q, 1%nat) /\
  cpu_percent since_last_call (cpu_percent since_last_call 0%nat).2
    = (Return 12%Q, 2%nat).
Proof.
  split; [| split; reflexivity].
  intros H. specialize (H CpuPercent CpuPercent 0%nat).
  vm_compute in H. discriminate H.
Qed.

(** ** The module after a failed import *)

(** X1: when [import psutil] failed, every call of the module that
    names [psutil] ends in [NameError] and leaves the host state as it
    was; [sensors_fans], which does not name it, still returns. *)
Theorem failed_import_NameError P c s :
  imported P = false ->
  state_after P c s = s /\
  call_exception P c s =
    match c with
    | SensorsFans => None
    | _ => Some NameError
    end.
Proof.
  intros H.
  destruct c;
    cbv [state_after call_exception count_cpus count_cpus_nonlogical
         cpu_stats cpu_frequency_all cpu_frequency_each cpu_percent
         average_sysload virtual_memory virtual_memory_dict used_ram_percent
         available_ram_percent swap_memory disk_partitions disk_usage
         io_statistics sensors_temp sensors_fans psutil bind ret
         exception_of];
    rewrite ?H; split; reflexivity.
Qed.

Lemma failed_import_NameError_witness :
  call_exception (without_psutil (Host.linux false Host.steady))
    AvailableRamPercent 0%nat = Some NameError.
Proof.
  exact (proj2 (failed_import_NameError
                  (without_psutil (Host.linux false Host.steady))
                  AvailableRamPercent 0%nat eq_refl)).
Defined.

(** ** Failures and bounds of [available_ram_percent] *)

(** X2: an exception of the first read ends the call in the state that
    read left, before any second read; an exception of the second read
    ends it in the state the second read left. *)
Theorem available_ram_percent_read_failure P s :
  (forall e s1,
      virtual_memory P s = (Raise e, s1) ->
      available_ram_percent P s = (Raise e, s1)) /\
  (forall m1 s1 e s2,
      virtual_memory P s = (Return m1, s1) ->
      virtual_memory P s1 = (Raise e, s2) ->
      available_ram_percent P s = (Raise e, s2)).
Proof.
  split.
  - intros e s1 H1. unfold available_ram_percent.
    apply bind_Raise. exact H1.
  - intros m1 s1 e s2 H1 H2. unfold available_ram_percent.
    rewrite (bind_Return _ _ _ _ _ H1). cbv zeta.
    apply bind_Raise. exact H2.
Qed.

Lemma available_ram_percent_read_failure_witness :
  available_ram_percent read_once 0%nat
    = (Raise (ProviderError "OSError"), 1%nat).
Proof.
  exact (proj2 (available_ram_percent_read_failure read_once 0%nat)
           (Host.steady 0) 1%nat (ProviderError "OSError") 1%nat
           eq_refl eq_refl).
Defined.

(** X3: after two reads that returned, the call returns a value exactly
    when the total of the second reading is not zero (a negative total
    included), and ends in [ZeroDivisionError] exactly when it is. *)
Theorem available_ram_percent_returns_iff P s m1 s1 m2 s2 :
  virtual_memory P s = (Return m1, s1) ->
  virtual_memory P s1 = (Return m2, s2) ->
  ((exists q, available_ram_percent P s = (Return q, s2)) <->
   total m2 <> 0) /\
  (available_ram_percent P s = (Raise ZeroDivisionError, s2) <->
   total m2 = 0).
Proof.
  intros H1 H2.
  rewrite (available_ram_percent_reads _ _ _ _ _ _ H1 H2).
  destruct (decide (total m2 = 0)) as [Hz | Hnz].
  - rewrite Hz, truediv_zero. split; split.
    + intros [q Hq]. discriminate Hq.
    + intros Hne. contradiction.
    + reflexivity.
    + reflexivity.
  - rewrite (truediv_nonzero _ _ Hnz). split; split.
    + intros _. exact Hnz.
    + intros _. eexists. reflexivity.
    + intros Hr. discriminate Hr.
    + intros Hz. contradiction.
Qed.

Lemma available_ram_percent_returns_iff_witness :
  available_ram_percent (Host.linux false Host.empty) 0%nat
    = (Raise ZeroDivisionError, 0%nat).
Proof.
  apply (proj2 (available_ram_percent_returns_iff
                  (Host.linux false Host.empty) 0%nat
                  (Host.empty 0) 0%nat (Host.empty 0) 0%nat
                  eq_refl eq_refl)).
  reflexivity.
Defined.

Lemma percent_at_least_100 a t :
  0 < t -> t <= a -> (100 <= inject_Z (a * 100) / inject_Z t)%Q.
Proof.
  intros Ht Hta.
  apply Qle_shift_div_l.
  - change (inject_Z 0 < inject_Z t)%Q. rewrite <- Zlt_Qlt. exact Ht.
  - change 100%Q with (inject_Z 100). rewrite <- inject_Z_mult.
    rewrite <- Zle_Qle. lia.
Qed.

(** X4: with a positive total at the second read, the result is within
    [0, 100] when the available amount of the first read is between zero
    and that total, and it is at least 100 when that amount is the total
    or more. *)
Theorem available_ram_percent_across_reads P s m1 s1 m2 s2 :
  virtual_memory P s = (Return m1, s1) ->
  virtual_memory P s1 = (Return m2, s2) ->
  0 < total m2 ->
  exists q,
    available_ram_percent P s = (Return q, s2) /\
    (0 <= available m1 <= total m2 -> (0 <= q <= 100)%Q) /\
    (total m2 <= available m1 -> (100 <= q)%Q).
Proof.
  intros H1 H2 Ht.
  rewrite (available_ram_percent_reads _ _ _ _ _ _ H1 H2).
  rewrite truediv_nonzero by lia.
  eexists. split; [reflexivity |]. split.
  - intros Ha. apply percent_bounds; assumption.
  - intros Ha. apply percent_at_least_100; assumption.
Qed.

Lemma available_ram_percent_across_reads_witness :
  exists q,
    available_ram_percent (Host.linux true Host.shrinking) 0%nat
      = (Return q, 2%nat) /\
    (100 <= q)%Q.
Proof.
  destruct (available_ram_percent_across_reads
              (Host.linux true Host.shrinking) 0%nat
              (Host.shrinking 0) 1%nat (Host.shrinking 1) 2%nat
              eq_refl eq_refl eq_refl)
    as (q & Hq & _ & Hge).
  exists q. split; [exact Hq |]. apply Hge. discriminate.
Defined.

(** X5: over a provider whose operations only read the host, a sound
    memory reading gives a result within [0, 100], and the call leaves
    the state as it found it. *)
Theorem available_ram_percent_read_only P s m s' :
  read_only P ->
  virtual_memory P s = (Return m, s') ->
  sound_reading m ->
  exists q,
    available_ram_percent P s = (Return q, s) /\
    q = (inject_Z (available m * 100) / inject_Z (total m))%Q /\
    (0 <= q <= 100)%Q.
Proof.
  intros Hro Hvm [Ht Ha].
  assert (Hs : s' = s).
  { pose proof (pure_read_psutil P _ (ro_virtual_memory P Hro) s) as Hp.
    change (psutil P (p_virtual_memory P) s) with (virtual_memory P s) in Hp.
    rewrite Hvm in Hp. exact Hp. }
  subst s'.
  rewrite (available_ram_percent_reads _ _ _ _ _ _ Hvm Hvm).
  rewrite truediv_nonzero by lia.
  eexists. split; [reflexivity |]. split; [reflexivity |].
  apply percent_bounds; assumption.
Qed.

Lemma available_ram_percent_read_only_witness :
  exists q,
    available_ram_percent (Host.linux false Host.steady) 0%nat
      = (Return q, 0%nat) /\
    q = (inject_Z (2 * Host.GiB * 100) / inject_Z (8 * Host.GiB))%Q.
Proof.
  destruct (available_ram_percent_read_only (Host.linux false Host.steady)
              0%nat (Host.steady 0) 0%nat)
    as (q & Hq & Hv & _).
  - constructor; try (intros s; reflexivity); intros x s; try reflexivity.
    simpl. case_bool_decide; reflexivity.
  - reflexivity.
  - split; [reflexivity | split; discriminate].
  - exists q. split; [exact Hq | exact Hv].
Defined.

(** ** The reading behind the memory queries *)

(** X6: from one state, [used_ram_percent] returns the [percent] field
    of the record [virtual_memory] returns, which is also the entry
    ["percent"] of the mapping [virtual_memory_dict] returns; an
    exception of the read ends [used_ram_percent] with that exception. *)
Theorem used_ram_percent_is_percent_field P s :
  match virtual_memory P s with
  | (Return m, s') =>
      used_ram_percent P s = (Return (percent m), s') /\
      exists d : gmap string pyobj,
        virtual_memory_dict P s = (Return d, s') /\
        d !! "percent" = Some (PyFloat (percent m))
  | (Raise e, s') => used_ram_percent P s = (Raise e, s')
  end.
Proof.
  destruct (virtual_memory P s) as [[m | e] s'] eqn:Hvm.
  - split.
    + unfold used_ram_percent. rewrite (bind_Return _ _ _ _ _ Hvm).
      reflexivity.
    + exists (svmem_asdict m). split.
      * unfold virtual_memory_dict. rewrite (bind_Return _ _ _ _ _ Hvm).
        reflexivity.
      * rewrite svmem_asdict_lookup. reflexivity.
  - unfold used_ram_percent. apply bind_Raise. exact Hvm.
Qed.

(** X7: the mapping [virtual_memory_dict] returns has the field names of
    the record as its keys; when no field name occurs twice, its entries
    are the fields of the record, each once, so there are as many as the
    five common fields and the platform's. *)
Theorem virtual_memory_dict_keeps_fields P s (d : gmap string pyobj) s' :
  virtual_memory_dict P s = (Return d, s') ->
  exists m,
    virtual_memory P s = (Return m, s') /\
    dom d = list_to_set (svmem_fields m).*1 /\
    (NoDup (svmem_fields m).*1 ->
     map_to_list d ≡ₚ svmem_fields m /\
     size d = (5 + length (vm_platform m))%nat).
Proof.
  intros Hd. unfold virtual_memory_dict in Hd.
  destruct (virtual_memory P s) as [[m | e] s1] eqn:Hvm.
  - rewrite (bind_Return _ _ _ _ _ Hvm) in Hd. injection Hd as <- <-.
    exists m. split; [reflexivity |]. split.
    + unfold svmem_asdict. apply dom_list_to_map_L.
    + intros Hnd.
      assert (Hperm : map_to_list (svmem_asdict m) ≡ₚ svmem_fields m)
        by (apply map_to_list_to_map; exact Hnd).
      split; [exact Hperm |].
      rewrite <- length_map_to_list, Hperm.
      unfold svmem_fields. rewrite length_app, length_fmap. reflexivity.
  - rewrite (bind_Raise _ _ _ _ _ Hvm) in Hd. discriminate Hd.
Qed.

Lemma virtual_memory_dict_keeps_fields_witness :
  size (svmem_asdict (Host.steady 0)) = 7%nat.
Proof.
  destruct (virtual_memory_dict_keeps_fields (Host.linux false Host.steady)
              0%nat (svmem_asdict (Host.steady 0)) 0%nat eq_refl)
    as (m & Hm & _ & Hfields).
  injection Hm as <-.
  refine (proj2 (Hfields _)).
  apply (bool_decide_unpack (NoDup (svmem_fields (Host.steady 0)).*1)).
  vm_compute. exact I.
Defined.

(** X8: how many reads a memory query makes: [virtual_memory_dict] and
    [used_ram_percent] leave the state one [virtual_memory] call leaves;
    [available_ram_percent] leaves the state of a second such call made
    after the first when the first returned, and the state of the first
    when it raised. *)
Theorem memory_queries_reads P s :
  state_after P VirtualMemoryDict s = state_after P VirtualMemory s /\
  state_after P UsedRamPercent s = state_after P VirtualMemory s /\
  state_after P AvailableRamPercent s =
    match (virtual_memory P s).1 with
    | Return _ => state_after P VirtualMemory (state_after P VirtualMemory s)
    | Raise _ => state_after P VirtualMemory s
    end.
Proof.
  cbv beta iota delta [state_after].
  unfold virtual_memory_dict, used_ram_percent, available_ram_percent.
  destruct (virtual_memory P s) as [[m1 | e] s1] eqn:H1.
  - rewrite !(bind_Return _ _ _ _ _ H1). cbv zeta.
    split; [reflexivity |]. split; [reflexivity |].
    change (psutil P (p_virtual_memory P)) with (virtual_memory P).
    simpl. destruct (virtual_memory P s1) as [[m2 | e] s2] eqn:H2.
    + rewrite (bind_Return _ _ _ _ _ H2).
      unfold bind, lift, ret.
      destruct (truediv (available m1 * 100) (total m2)); reflexivity.
    + rewrite (bind_Raise _ _ _ _ _ H2). reflexivity.
  - rewrite !(bind_Raise _ _ _ _ _ H1). repeat split; reflexivity.
Qed.

(** ** No exception handled, none of the module's own *)

(** X10: with [psutil] imported, an exception of the provider call a
    call of the module makes first is the exception the call ends in;
    and every call but [available_ram_percent] ends in an exception only
    then. *)
Theorem provider_exception_reaches_caller P c s :
  imported P = true ->
  (forall e, provider_exception P c s = Some e ->
             call_exception P c s = Some e) /\
  (c <> AvailableRamPercent ->
   call_exception P c s = provider_exception P c s).
Proof.
  intros H.
  destruct c;
    cbv [call_exception provider_exception count_cpus count_cpus_nonlogical
         cpu_stats cpu_frequency_all cpu_frequency_each cpu_percent
         average_sysload virtual_memory virtual_memory_dict used_ram_percent
         available_ram_percent swap_memory disk_partitions disk_usage
         io_statistics sensors_temp sensors_fans psutil bind ret];
    rewrite ?H;
    try (split; [intros e He; exact He | intros _; reflexivity]).
  - destruct (p_virtual_memory P s) as [[m | e] s1];
      split; [intros e He; exact He | reflexivity
             | intros e' He; exact He | reflexivity].
  - destruct (p_virtual_memory P s) as [[m | e] s1];
      split; [intros e He; exact He | reflexivity
             | intros e' He; exact He | reflexivity].
  - split; [| intros Hne; contradiction].
    destruct (p_virtual_memory P s) as [[m | e] s1]; simpl.
    + intros e He. discriminate He.
    + intros e' He. exact He.
Qed.

Lemma provider_exception_reaches_caller_witness :
  call_exception (Host.linux false Host.steady)
    (DiskUsage (Some "/missing")) 0%nat
  = Some (ProviderError "FileNotFoundError").
Proof.
  exact (proj1 (provider_exception_reaches_caller
                  (Host.linux false Host.steady)
                  (DiskUsage (Some "/missing")) 0%nat eq_refl)
           (ProviderError "FileNotFoundError") eq_refl).
Defined.
